(** * Authentication handlers of [server/app/auth.go]

    A shallow embedding of the login handler, the first-admin handler and
    the authenticator middleware, together with the properties the
    specification states about them.

    Conventions of the embedding.
    - A Go multi-value return [(x, err)] is a pair whose error component is
      an [option error] ([None] is Go's [nil]); a pointer result is an
      [option] as well.
    - The user repository ([model.UserRepository]) is an interface in the
      source: it is a type class over an abstract store state, and every
      handler threads that state explicitly.  Every call made through the
      interface is also recorded, in order, in a call history.
    - A run-time panic (nil dereference, failed type assertion) is an
      explicit outcome of the monad the handlers run in.
    - Logging ([log.Error], [log.Warn]) has no influence on any result and
      is left out; [auth.InitTokenAuth] only prepares the signing key and
      is left out as well. *)

From stdpp Require Import base option strings list gmap.
From Stdlib Require Import ZArith.

Local Open Scope Z_scope.
Local Open Scope string_scope.

(** ** Values of the Go runtime the handlers manipulate *)

(** Go [error] values.  The source compares errors with [==], that is by
    identity with a sentinel; a value made by [errors.New] at another place
    is never identical to a sentinel, whatever its text. *)
Inductive error : Type :=
| ErrNotFound                 (* model.ErrNotFound *)
| ErrFirstTime                (* app.ErrFirstTime *)
| errors_New (msg : string).  (* any other error value *)

#[global] Instance error_eq_dec : EqDecision error.
Proof. solve_decision. Defined.

(** [err.Error()].  The text of [model.ErrNotFound] is declared outside
    this package. *)
Definition Error (e : error) : string :=
  match e with
  | ErrNotFound => "data not found"
  | ErrFirstTime => "no users created"
  | errors_New msg => msg
  end.

(** [model.User], with the fields this package reads or writes.  Times are
    seconds on the clock of the process. *)
Record User : Type := mkUser {
  ID : string;
  UserName : string;
  Name : string;
  Email : string;
  Password : string;
  IsAdmin : bool;
  LastLoginAt : option Z
}.

#[global] Instance User_eq_dec : EqDecision User.
Proof. solve_decision. Defined.

(** A dynamically typed value ([interface{}]): what a decoded claim or a
    JSON payload field holds. *)
Inductive value : Type :=
| VNil
| VString (s : string)
| VNumber (n : Z)
| VBool (b : bool).

#[global] Instance value_eq_dec : EqDecision value.
Proof. solve_decision. Defined.

(** [jwt.MapClaims] is [map[string]interface{}]; indexing a Go map at a
    missing key yields the zero value, here the nil interface. *)
Abbreviation MapClaims := (gmap string value).

Definition claim (claims : MapClaims) (key : string) : value :=
  default VNil (claims !! key).

(** [jwt.Token]: the raw string that was submitted, its claims (always a
    [MapClaims] for tokens parsed by the verifier) and the verdict of the
    parser on signature and expiry. *)
Record Token : Type := mkToken {
  Raw : string;
  Claims : MapClaims;
  Valid : bool
}.

(** The request-scoped [context.Context]: the two slots the token verifier
    fills, and the ["user"] slot the middleware fills ([Some None] is a
    bound nil pointer). *)
Record Context : Type := mkContext {
  TokenCtxKey : option Token;
  ErrorCtxKey : option error;
  userKey : option (option User)
}.

Definition context_Background : Context :=
  {| TokenCtxKey := None; ErrorCtxKey := None; userKey := None |}.

(** [context.WithValue(ctx, "user", user)]. *)
Definition WithValue_user (ctx : Context) (user : option User) : Context :=
  {| TokenCtxKey := TokenCtxKey ctx;
     ErrorCtxKey := ErrorCtxKey ctx;
     userKey := Some user |}.

(** [jwtauth.FromContext]: the token, its claims (an empty mapping when
    there is no token) and the verification error. *)
Definition jwtauth_FromContext (ctx : Context)
  : option Token * MapClaims * option error :=
  let token := TokenCtxKey ctx in
  let claims := match token with
                | Some t => Claims t
                | None => ∅
                end in
  (token, claims, ErrorCtxKey ctx).

(** The body of a request as the JSON decoder sees it when decoding into a
    [map[string]string]: either it does not decode, or it is such a map. *)
Inductive body : Type :=
| BodyMalformed
| BodyObject (data : gmap string string).

Record Request : Type := mkRequest {
  Body : body;
  r_Context : Context
}.

(** [r.WithContext(ctx)]. *)
Definition WithContext (r : Request) (ctx : Context) : Request :=
  {| Body := Body r; r_Context := ctx |}.

(** [http.ResponseWriter]: the headers, and the status and JSON payload
    once written. *)
Record ResponseWriter : Type := mkResponseWriter {
  Header : gmap string string;
  Status : option Z;
  Payload : option (gmap string value)
}.

Definition emptyResponse : ResponseWriter :=
  {| Header := ∅; Status := None; Payload := None |}.

(** [w.Header().Set(key, v)]. *)
Definition Header_Set (w : ResponseWriter) (key v : string) : ResponseWriter :=
  {| Header := <[key := v]> (Header w);
     Status := Status w;
     Payload := Payload w |}.

Definition StatusOK : Z := 200.
Definition StatusUnauthorized : Z := 401.
Definition StatusForbidden : Z := 403.
Definition StatusUnprocessableEntity : Z := 422.
Definition StatusInternalServerError : Z := 500.

(** [rest.RespondWithJSON], of the [rest] library: it sets the
    [Content-Type] header to JSON, then writes the status and the
    payload. *)
Definition RespondWithJSON (w : ResponseWriter) (code : Z)
    (payload : gmap string value) : ResponseWriter :=
  {| Header := <["Content-Type" := "application/json"]> (Header w);
     Status := Some code;
     Payload := Some payload |}.

(** [rest.RespondWithError] is a JSON response with the single field
    ["error"]. *)
Definition RespondWithError (w : ResponseWriter) (code : Z) (message : string)
  : ResponseWriter :=
  RespondWithJSON w code {[ "error" := VString message ]}.

(** ** The collaborators *)

(** [model.UserRepository], over a store state [S].  The two queries
    return their Go pair; the two commands also return the next state. *)
Class UserRepository (S : Type) : Type := {
  FindByUsername : S → string → option User * option error;
  CountAll : S → Z * option error;
  Put : S → User → option error * S;
  UpdateLastLoginAt : S → string → option error * S
}.

(** What the process supplies besides the store: the token codec of
    [engine/auth], the random identifier and the clock read when the first
    user is made, [strings.Title] and [consts.Version]. *)
Record Env : Type := mkEnv {
  CreateToken : User → string * option error;
  TouchToken : Token → string * option error;
  uuid_NewRandom : string;
  time_Now : Z;
  strings_Title : string → string;
  consts_Version : string
}.

(** ** The monad of the handlers: store state, call history, panics *)

Inductive Call : Type :=
| CallFindByUsername (userName : string)
| CallCountAll
| CallPut (u : User)
| CallUpdateLastLoginAt (id : string).

#[global] Instance Call_eq_dec : EqDecision Call.
Proof. solve_decision. Defined.

Record World (S : Type) : Type := mkWorld {
  store : S;
  history : list Call
}.
Arguments mkWorld {S} _ _.
Arguments store {S} _.
Arguments history {S} _.

Inductive Panic : Type :=
| NilDereference
| InterfaceConversion.

Inductive Result (A : Type) : Type :=
| Returned (a : A)
| Panicked (p : Panic).
Arguments Returned {A} _.
Arguments Panicked {A} _.

Definition M (S A : Type) : Type := World S → Result A * World S.

#[global] Instance M_ret {S} : MRet (M S) :=
  λ A (a : A) (w : World S), (Returned a, w).

#[global] Instance M_bind {S} : MBind (M S) :=
  λ A B (f : A → M S B) (m : M S A) (w : World S),
    match m w with
    | (Returned a, w') => f a w'
    | (Panicked p, w') => (Panicked p, w')
    end.

Definition panic {S A} (p : Panic) : M S A :=
  λ w, (Panicked p, w).

Definition logCall {S} (c : Call) (w : World S) (σ : S) : World S :=
  {| store := σ; history := (history w ++ [c])%list |}.

Section Calls.
Context {S : Type} `{UserRepository S}.

Definition callFindByUsername (userName : string)
  : M S (option User * option error) :=
  λ w, (Returned (FindByUsername (store w) userName),
        logCall (CallFindByUsername userName) w (store w)).

Definition callCountAll : M S (Z * option error) :=
  λ w, (Returned (CountAll (store w)), logCall CallCountAll w (store w)).

Definition callPut (u : User) : M S (option error) :=
  λ w, let '(err, σ) := Put (store w) u in
       (Returned err, logCall (CallPut u) w σ).

Definition callUpdateLastLoginAt (id : string) : M S (option error) :=
  λ w, let '(err, σ) := UpdateLastLoginAt (store w) id in
       (Returned err, logCall (CallUpdateLastLoginAt id) w σ).
End Calls.

(** An [http.Handler]. *)
Definition Handler (S : Type) : Type :=
  ResponseWriter → Request → M S ResponseWriter.

(** ** The handlers, function by function *)

(** The local [valid] of [getToken], which depends on the context only:
    no verification error, a token that is there and marked valid, and a
    ["sub"] claim that is not nil. *)
Definition getToken_valid (ctx : Context) : bool :=
  let '(token, claims, err) := jwtauth_FromContext ctx in
  let valid :=
    bool_decide (err = None)
    && match token with
       | Some t => Valid t
       | None => false
       end in
  let valid := valid && bool_decide (claim claims "sub" ≠ VNil) in
  valid.

Section Handlers.
Context {S : Type} `{UserRepository S} (env : Env).

(** [getCredentialsFromBody]: the named results are still empty strings
    when the decoder fails. *)
Definition getCredentialsFromBody (r : Request)
  : string * string * option error :=
  match Body r with
  | BodyMalformed => ("", "", Some (errors_New "Invalid request payload"))
  | BodyObject data =>
      (default "" (data !! "username"), default "" (data !! "password"), None)
  end.

Definition validateLogin (userName password : string)
  : M S (option User * option error) :=
  '(u, err) ← callFindByUsername userName;
  if decide (err = Some ErrNotFound) then mret (None, None)
  else if decide (err ≠ None) then mret (None, err)
  else match u with
       | None => panic NilDereference
       | Some u =>
           if decide (Password u ≠ password) then mret (None, None)
           else
             _ ← callUpdateLastLoginAt (ID u);
             mret (Some u, None)
       end.

Definition loginPayload (username tokenString : string) (user : User)
  : gmap string value :=
  list_to_map
    [ ("message",
       VString ("User '" +:+ username +:+ "' authenticated successfully"));
      ("token", VString tokenString);
      ("name", VString (Name user));
      ("username", VString username);
      ("isAdmin", VBool (IsAdmin user));
      ("version", VString (consts_Version env)) ].

Definition handleLogin (username password : string) : Handler S :=
  λ w r,
    '(user, err) ← validateLogin username password;
    if decide (err ≠ None) then
      mret (RespondWithError w StatusInternalServerError
              "Unknown error authentication user. Please try again")
    else match user with
         | None =>
             mret (RespondWithError w StatusUnauthorized
                     "Invalid username or password")
         | Some user =>
             let '(tokenString, err) := CreateToken env user in
             if decide (err ≠ None) then
               mret (RespondWithError w StatusInternalServerError
                       "Unknown error authenticating user. Please try again")
             else
               mret (RespondWithJSON w StatusOK
                       (loginPayload username tokenString user))
         end.

Definition Login : Handler S :=
  λ w r,
    let '(username, password, err) := getCredentialsFromBody r in
    match err with
    | Some err => mret (RespondWithError w StatusUnprocessableEntity (Error err))
    | None => handleLogin username password w r
    end.

(** [createDefaultUser]: the error of [Put] is logged, and the function
    returns [nil] on both paths. *)
Definition createDefaultUser (username password : string)
  : M S (option error) :=
  let id := uuid_NewRandom env in
  let now := time_Now env in
  let initialUser :=
    {| ID := id;
       UserName := username;
       Name := strings_Title env username;
       Email := "";
       Password := password;
       IsAdmin := true;
       LastLoginAt := Some now |} in
  _ ← callPut initialUser;
  mret None.

Definition CreateAdmin : Handler S :=
  λ w r,
    let '(username, password, err) := getCredentialsFromBody r in
    match err with
    | Some err => mret (RespondWithError w StatusUnprocessableEntity (Error err))
    | None =>
        '(c, err) ← callCountAll;
        match err with
        | Some err =>
            mret (RespondWithError w StatusInternalServerError (Error err))
        | None =>
            if decide (c > 0) then
              mret (RespondWithError w StatusForbidden
                      "Cannot create another first admin")
            else
              err ← createDefaultUser username password;
              match err with
              | Some err =>
                  mret (RespondWithError w StatusInternalServerError (Error err))
              | None => handleLogin username password w r
              end
        end
    end.

(** [contextWithUser]: the type assertion [claims["sub"].(string)] panics
    on anything that is not a string; the error of the lookup is dropped
    and whatever pointer it returned is bound. *)
Definition contextWithUser (ctx : Context) (claims : MapClaims)
  : M S Context :=
  match claim claims "sub" with
  | VString userName =>
      '(user, _) ← callFindByUsername userName;
      mret (WithValue_user ctx user)
  | _ => panic InterfaceConversion
  end.

Definition getToken (ctx : Context) : M S (option Token * option error) :=
  let '(token, claims, err) := jwtauth_FromContext ctx in
  if getToken_valid ctx then mret (token, None)
  else
    '(c, err) ← callCountAll;
    let firstTime := bool_decide (c = 0) && bool_decide (err = None) in
    if firstTime then mret (None, Some ErrFirstTime)
    else mret (None, Some (errors_New "invalid authentication")).

Definition Authenticator (next : Handler S) : Handler S :=
  λ w r,
    '(token, err) ← getToken (r_Context r);
    if decide (err = Some ErrFirstTime) then
      mret (RespondWithJSON w StatusUnauthorized
              {[ "message" := VString (Error ErrFirstTime) ]})
    else if decide (err ≠ None) then
      mret (RespondWithError w StatusUnauthorized "Not authenticated")
    else match token with
         | None => panic NilDereference
         | Some token =>
             let claims := Claims token in
             newCtx ← contextWithUser (r_Context r) claims;
             let '(newTokenString, err) := TouchToken env token in
             if decide (err ≠ None) then
               mret (RespondWithError w StatusUnauthorized "Not authenticated")
             else
               next (Header_Set w "Authorization" newTokenString)
                    (WithContext r newCtx)
         end.
End Handlers.

(** ** Stand-ins for the collaborators: title case, a reference store *)

(** [strings.Title] on ASCII text: the first letter of every word is made
    upper case, where a word is a run of letters, digits and underscores. *)
Definition isSeparator (c : Ascii.ascii) : bool :=
  let n := Ascii.N_of_ascii c in
  negb (((48 <=? n) && (n <=? 57)) || ((97 <=? n) && (n <=? 122))
        || ((65 <=? n) && (n <=? 90)) || (n =? 95))%N.

Definition toTitle (c : Ascii.ascii) : Ascii.ascii :=
  let n := Ascii.N_of_ascii c in
  if ((97 <=? n) && (n <=? 122))%N then Ascii.ascii_of_N (n - 32) else c.

Fixpoint titleFrom (prevSeparator : bool) (s : string) : string :=
  match s with
  | EmptyString => EmptyString
  | String c rest =>
      String (if prevSeparator then toTitle c else c)
             (titleFrom (isSeparator c) rest)
  end.

Definition Title (s : string) : string := titleFrom true s.

(** The first user of a list with the given name (names are compared
    exactly, case included). *)
Definition lookupUser (userName : string) (l : list User) : option User :=
  List.find (λ u, bool_decide (UserName u = userName)) l.

(** Two user records that differ at most in their last-login time. *)
Definition sameAccount (u u' : User) : Prop :=
  ID u = ID u' ∧ UserName u = UserName u' ∧ Name u = Name u'
  ∧ Email u = Email u' ∧ Password u = Password u' ∧ IsAdmin u = IsAdmin u'.

(** Modelled from the spec: the persistent user store is an external
    collaborator whose implementation is not part of this package; the
    specification describes it as a repository with find-by-username,
    create, count-all and update-last-login.  [StoreContract] says what
    these four operations do to the list of users a store state holds. *)
Record StoreContract {S : Type} `{UserRepository S}
    (contents : S → list User) : Prop := {
  find_present : ∀ σ n u,
    lookupUser n (contents σ) = Some u → FindByUsername σ n = (Some u, None);
  find_absent : ∀ σ n,
    lookupUser n (contents σ) = None →
    (FindByUsername σ n).2 = Some ErrNotFound;
  count_all : ∀ σ,
    CountAll σ = (Z.of_nat (length (contents σ)), None);
  put_creates : ∀ σ u,
    (Put σ u).1 = None ∧ contents (Put σ u).2 = (contents σ ++ [u])%list;
  update_touches : ∀ σ id,
    Forall2 sameAccount (contents σ) (contents (UpdateLastLoginAt σ id).2)
}.

(** Modelled from the spec: a store that keeps its users in a list, in the
    order they were created, and stamps logins with a clock of its own. *)
Record MemStore : Type := mkMemStore {
  users : list User;
  clock : Z
}.

Definition touch (now : Z) (id : string) (u : User) : User :=
  if decide (ID u = id) then
    {| ID := ID u; UserName := UserName u; Name := Name u; Email := Email u;
       Password := Password u; IsAdmin := IsAdmin u; LastLoginAt := Some now |}
  else u.

#[global] Instance MemStore_repository : UserRepository MemStore := {|
  FindByUsername σ n :=
    match lookupUser n (users σ) with
    | Some u => (Some u, None)
    | None => (None, Some ErrNotFound)
    end;
  CountAll σ := (Z.of_nat (length (users σ)), None);
  Put σ u := (None, {| users := (users σ ++ [u])%list; clock := clock σ |});
  UpdateLastLoginAt σ id :=
    (None, {| users := touch (clock σ) id <$> users σ; clock := clock σ |})
|}.

(** A store whose operations can be made to fail: an operation whose fault
    is set returns that error and leaves the users alone. *)
Record FaultyStore : Type := mkFaultyStore {
  inner : MemStore;
  findFault : option error;
  countFault : option error;
  putFault : option error;
  updateFault : option error
}.

Definition withInner (σ : FaultyStore) (m : MemStore) : FaultyStore :=
  {| inner := m; findFault := findFault σ; countFault := countFault σ;
     putFault := putFault σ; updateFault := updateFault σ |}.

#[global] Instance FaultyStore_repository : UserRepository FaultyStore := {|
  FindByUsername σ n :=
    match findFault σ with
    | Some e => (None, Some e)
    | None => FindByUsername (inner σ) n
    end;
  CountAll σ :=
    match countFault σ with
    | Some e => (0, Some e)
    | None => CountAll (inner σ)
    end;
  Put σ u :=
    match putFault σ with
    | Some e => (Some e, σ)
    | None => (None, withInner σ (Put (inner σ) u).2)
    end;
  UpdateLastLoginAt σ id :=
    match updateFault σ with
    | Some e => (Some e, σ)
    | None => (None, withInner σ (UpdateLastLoginAt (inner σ) id).2)
    end
|}.

Definition emptyStore : MemStore := {| users := []; clock := 1700000000 |}.

(** A token codec for concrete runs: tokens are readable strings, and a
    refreshed token is the old one with a mark appended. *)
Definition plainEnv : Env := {|
  CreateToken u := ("token:" +:+ UserName u, None);
  TouchToken t := (Raw t +:+ "+", None);
  uuid_NewRandom := "2f1c7a86-0000-4000-8000-000000000001";
  time_Now := 1700000000;
  strings_Title := Title;
  consts_Version := "dev"
|}.

(** The same, with a signing key that cannot sign. *)
Definition brokenSignerEnv : Env := {|
  CreateToken u := ("", Some (errors_New "key is invalid"));
  TouchToken t := ("", Some (errors_New "key is invalid"));
  uuid_NewRandom := uuid_NewRandom plainEnv;
  time_Now := time_Now plainEnv;
  strings_Title := Title;
  consts_Version := "dev"
|}.


(** A world with an empty call history. *)
Definition fresh {S : Type} (σ : S) : World S :=
  {| store := σ; history := [] |}.

Definition credentials (username password : string) : Request :=
  {| Body := BodyObject {[ "username" := username; "password" := password ]};
     r_Context := context_Background |}.

(** ** Responses and derived values the statements refer to *)

(** The user [createDefaultUser] synthesizes. *)
Definition firstAdmin (env : Env) (username password : string) : User :=
  {| ID := uuid_NewRandom env;
     UserName := username;
     Name := strings_Title env username;
     Email := "";
     Password := password;
     IsAdmin := true;
     LastLoginAt := Some (time_Now env) |}.

Definition invalidCredentials (w : ResponseWriter) : ResponseWriter :=
  RespondWithError w StatusUnauthorized "Invalid username or password".

(** The body the middleware sends when no user exists yet. *)
Definition noUsersCreated (w : ResponseWriter) : ResponseWriter :=
  RespondWithJSON w StatusUnauthorized {[ "message" := VString "no users created" ]}.

(** The generic rejection of the middleware. *)
Definition notAuthenticated (w : ResponseWriter) : ResponseWriter :=
  RespondWithError w StatusUnauthorized "Not authenticated".

(** ** Sample data for concrete runs *)

(** A store with one user, for concrete runs. *)
Definition alice : User :=
  {| ID := "u-1"; UserName := "alice"; Name := "Alice"; Email := "";
     Password := "s3cret"; IsAdmin := false; LastLoginAt := None |}.

Definition aliceStore : MemStore := {| users := [alice]; clock := 1700000500 |}.

(** A verified token for the subject [sub], as the verifier leaves it in
    the context of a request. *)
Definition verifiedToken (raw : string) (sub : value) : Token :=
  {| Raw := raw; Claims := {[ "sub" := sub; "exp" := VNumber 1700003600 ]};
     Valid := true |}.

Definition withToken (t : Token) : Context :=
  {| TokenCtxKey := Some t; ErrorCtxKey := None; userKey := None |}.

(** A protected handler: it answers 200 with the name of the user the
    middleware bound in the context of the request. *)
Definition whoami {S : Type} : Handler S :=
  λ w r,
    mret (RespondWithJSON w StatusOK
            {[ "user" := match userKey (r_Context r) with
                         | Some (Some u) => VString (UserName u)
                         | _ => VNil
                         end ]}).

Definition bare (ctx : Context) : Request :=
  {| Body := BodyMalformed; r_Context := ctx |}.

Definition findFails (m : MemStore) (e : error) : FaultyStore :=
  {| inner := m; findFault := Some e; countFault := None; putFault := None;
     updateFault := None |}.

Definition countFails (m : MemStore) (e : error) : FaultyStore :=
  {| inner := m; findFault := None; countFault := Some e; putFault := None;
     updateFault := None |}.

Definition putFails (m : MemStore) (e : error) : FaultyStore :=
  {| inner := m; findFault := None; countFault := None; putFault := Some e;
     updateFault := None |}.

(** * Properties *)

Example Title_sample : Title "first admin_user x" = "First Admin_user X".
Proof. reflexivity. Qed.

(** ** Proof support *)

(** Unfolds the monad, so that a handler applied to a world becomes a plain
    term over the repository operations. *)
Ltac unfold_monad :=
  unfold mbind, M_bind, mret, M_ret, panic,
    callFindByUsername, callCountAll, callPut, callUpdateLastLoginAt in *.

Lemma bind_run {S A B : Type} (m : M S A) (f : A → M S B) (σ : World S) :
  (m ≫= f) σ =
  match m σ with
  | (Returned a, σ') => f a σ'
  | (Panicked p, σ') => (Panicked p, σ')
  end.
Proof. reflexivity. Qed.

(** ** Credential validation *)

Section ValidateLogin.
Context {S : Type} `{UserRepository S}.
Implicit Types (w : World S) (userName password : string).

(** What [validateLogin] does, by the answer of the lookup. *)
Lemma validateLogin_unfold userName password w :
  validateLogin userName password w =
  let w1 := logCall (CallFindByUsername userName) w (store w) in
  match FindByUsername (store w) userName with
  | (_, Some ErrNotFound) => (Returned (None, None), w1)
  | (_, Some e) => (Returned (None, Some e), w1)
  | (None, None) => (Panicked NilDereference, w1)
  | (Some u, None) =>
      if decide (Password u = password) then
        (Returned (Some u, None),
         logCall (CallUpdateLastLoginAt (ID u)) w1
           (UpdateLastLoginAt (store w) (ID u)).2)
      else (Returned (None, None), w1)
  end.
Proof.
  unfold validateLogin. unfold_monad. simpl.
  destruct (FindByUsername (store w) userName) as [[u|] [[| |msg]|]];
    simpl; try reflexivity.
  destruct (decide (Password u = password)) as [Heq|Hne].
  - destruct (decide (Password u ≠ password)); [contradiction|].
    simpl. destruct (UpdateLastLoginAt (store w) (ID u)); reflexivity.
  - destruct (decide (Password u ≠ password)); [reflexivity|contradiction].
Qed.
(** C4.  [validateLogin] on the four answers of the lookup: no user
    with that name gives neither a user nor an error; a user whose stored
    password differs from the supplied one gives neither as well; a
    lookup that fails for any reason other than not-found gives that
    error; and a user is returned exactly when the lookup found that
    user and the stored password equals the supplied one. *)
Theorem validateLogin_outcomes userName password w :
  let found := FindByUsername (store w) userName in
  let result := (validateLogin userName password w).1 in
  (found.2 = Some ErrNotFound → result = Returned (None, None))
  ∧ (∀ u, found = (Some u, None) → Password u ≠ password →
       result = Returned (None, None))
  ∧ (∀ e, found.2 = Some e → e ≠ ErrNotFound →
       result = Returned (None, Some e))
  ∧ (∀ u err, result = Returned (Some u, err) ↔
       found = (Some u, None) ∧ Password u = password ∧ err = None).
Proof.
  intros found result. subst found result.
  rewrite validateLogin_unfold. simpl.
  destruct (FindByUsername (store w) userName) as [uo eo]. simpl.
  split; [|split; [|split]].
  - intros ->. destruct uo; reflexivity.
  - intros u Hu Hne. inversion Hu; subst.
    destruct (decide (Password u = password)); [contradiction|reflexivity].
  - intros e -> Hne. destruct uo, e; try reflexivity; contradiction.
  - intros u err. split.
    + destruct uo as [u0|], eo as [[| |msg]|]; simpl; try discriminate.
      destruct (decide (Password u0 = password));
        intros Hr; inversion Hr; subst; auto.
    + intros (Hu & Hp & ->). inversion Hu; subst.
      destruct (decide (Password u = Password u)); [reflexivity|contradiction].
Qed.

(** C7.  [validateLogin] calls [UpdateLastLoginAt] on the path of matching
    credentials and on no other: when it returns a user, the password
    matched and the store is the one that update left; on every other
    outcome (unknown name, wrong password, failed lookup) the lookup is
    the only call made and the store, last-login times included, is the
    one it started from. *)
Theorem validateLogin_last_login userName password w result w' :
  validateLogin userName password w = (result, w') →
  (∃ u, result = Returned (Some u, None)
        ∧ FindByUsername (store w) userName = (Some u, None)
        ∧ Password u = password
        ∧ history w' = (history w ++ [CallFindByUsername userName;
                                      CallUpdateLastLoginAt (ID u)])%list
        ∧ store w' = (UpdateLastLoginAt (store w) (ID u)).2)
  ∨ ((∀ u err, result ≠ Returned (Some u, err))
     ∧ history w' = (history w ++ [CallFindByUsername userName])%list
     ∧ store w' = store w).
Proof.
  rewrite validateLogin_unfold. simpl.
  destruct (FindByUsername (store w) userName) as [[u|] [[| |msg]|]];
    simpl; intros Hrun;
    try (right; inversion Hrun; subst; simpl;
         repeat split; congruence).
  destruct (decide (Password u = password)); inversion Hrun; subst; simpl.
  - left. exists u. rewrite <- app_assoc. simpl. repeat split; reflexivity.
  - right. repeat split; congruence.
Qed.
End ValidateLogin.

Lemma validateLogin_outcomes_witness :
  (validateLogin "bob" "s3cret" (fresh aliceStore)).1 = Returned (None, None)
  ∧ (validateLogin "alice" "guess" (fresh aliceStore)).1 = Returned (None, None)
  ∧ (validateLogin "alice" "s3cret"
       (fresh (findFails aliceStore (errors_New "database is locked")))).1
    = Returned (None, Some (errors_New "database is locked"))
  ∧ (validateLogin "alice" "s3cret" (fresh aliceStore)).1
    = Returned (Some alice, None).
Proof.
  split; [|split; [|split]].
  - apply (proj1 (validateLogin_outcomes "bob" "s3cret" (fresh aliceStore))).
    reflexivity.
  - apply (proj1 (proj2 (validateLogin_outcomes "alice" "guess" (fresh aliceStore)))
             alice); [reflexivity|].
    simpl. discriminate.
  - apply (proj1 (proj2 (proj2 (validateLogin_outcomes "alice" "s3cret" _)))
             (errors_New "database is locked")); [reflexivity|discriminate].
  - apply (proj2 (proj2 (proj2 (validateLogin_outcomes "alice" "s3cret"
                                  (fresh aliceStore)))) alice None).
    repeat split; reflexivity.
Defined.

Lemma validateLogin_last_login_witness :
  users (store (validateLogin "alice" "guess" (fresh aliceStore)).2) = [alice]
  ∧ LastLoginAt <$> users (store (validateLogin "alice" "s3cret" (fresh aliceStore)).2)
    = [Some 1700000500].
Proof.
  split.
  - destruct (validateLogin_last_login "alice" "guess" (fresh aliceStore)
                (validateLogin "alice" "guess" (fresh aliceStore)).1
                (validateLogin "alice" "guess" (fresh aliceStore)).2)
      as [(u & Hu & _)|(_ & _ & Hs)].
    + reflexivity.
    + vm_compute in Hu. discriminate Hu.
    + rewrite Hs. reflexivity.
  - destruct (validateLogin_last_login "alice" "s3cret" (fresh aliceStore)
                (validateLogin "alice" "s3cret" (fresh aliceStore)).1
                (validateLogin "alice" "s3cret" (fresh aliceStore)).2)
      as [(u & Hu & _ & _ & _ & Hs)|(Hn & _)].
    + reflexivity.
    + vm_compute in Hu. inversion Hu; subst u. rewrite Hs. reflexivity.
    + exfalso. apply (Hn alice None). reflexivity.
Defined.

(** ** The token check of the middleware *)

Lemma getToken_valid_spec ctx :
  getToken_valid ctx = true ↔
  ErrorCtxKey ctx = None
  ∧ ∃ t, TokenCtxKey ctx = Some t ∧ Valid t = true
         ∧ claim (Claims t) "sub" ≠ VNil.
Proof.
  unfold getToken_valid, jwtauth_FromContext.
  rewrite !andb_true_iff, !bool_decide_eq_true.
  destruct (TokenCtxKey ctx) as [t|]; split.
  - intros [[He Hv] Hs]. eauto.
  - intros (He & t' & Ht & Hv & Hs). inversion Ht; subst. auto.
  - intros [[_ Hv] _]. discriminate.
  - intros (_ & t' & Ht & _). discriminate.
Qed.

Section TokenCheck.
Context {S : Type} `{UserRepository S}.
Implicit Types (σ : World S) (ctx : Context).

Lemma getToken_accept ctx σ :
  getToken_valid ctx = true →
  getToken ctx σ = (Returned (TokenCtxKey ctx, None), σ).
Proof. intros Hv. unfold getToken. simpl. rewrite Hv. reflexivity. Qed.

Lemma getToken_reject ctx σ :
  getToken_valid ctx = false →
  getToken ctx σ =
  (Returned (None,
             Some (if decide (CountAll (store σ) = (0, None)) then ErrFirstTime
                   else errors_New "invalid authentication")),
   logCall CallCountAll σ (store σ)).
Proof.
  intros Hv. unfold getToken. simpl. rewrite Hv. unfold_monad. simpl.
  destruct (CountAll (store σ)) as [c [e|]]; simpl.
  - rewrite andb_false_r. destruct (decide _) as [Heq|]; [discriminate|reflexivity].
  - rewrite andb_true_r.
    destruct (decide ((c, None) = (0, None))) as [Heq|Hne].
    + inversion Heq; subst. reflexivity.
    + rewrite bool_decide_eq_false_2; [reflexivity|]. congruence.
Qed.

(** C2 (as amended).  The token check accepts a token exactly when the
    verifier reported no error, the token is there and marked valid
    (signature and expiry), and its subject claim is present, that is
    not nil.  The subject is not required to be non-empty: a verified
    token whose subject is the empty string is accepted. *)
Theorem getToken_accepts_iff ctx σ t :
  ((getToken ctx σ).1 = Returned (Some t, None) ↔
   ErrorCtxKey ctx = None ∧ TokenCtxKey ctx = Some t ∧ Valid t = true
   ∧ claim (Claims t) "sub" ≠ VNil)
  ∧ (ErrorCtxKey ctx = None → TokenCtxKey ctx = Some t → Valid t = true →
     claim (Claims t) "sub" = VString "" →
     (getToken ctx σ).1 = Returned (Some t, None)).
Proof.
  assert (Hiff : (getToken ctx σ).1 = Returned (Some t, None) ↔
                 ErrorCtxKey ctx = None ∧ TokenCtxKey ctx = Some t
                 ∧ Valid t = true ∧ claim (Claims t) "sub" ≠ VNil).
  { destruct (getToken_valid ctx) eqn:Hv.
    - rewrite getToken_accept by assumption. simpl.
      apply getToken_valid_spec in Hv as (He & t' & Ht & Hval & Hs).
      rewrite Ht. split.
      + intros Hr. inversion Hr; subst. auto.
      + intros (_ & Ht' & _). congruence.
    - rewrite getToken_reject by assumption. simpl. split.
      + discriminate.
      + intros (He & Ht & Hval & Hs).
        assert (getToken_valid ctx = true) by (apply getToken_valid_spec; eauto).
        congruence. }
  split; [exact Hiff|].
  intros He Ht Hval Hs. apply Hiff. rewrite Hs. repeat split; auto.
Qed.
End TokenCheck.

Lemma getToken_accepts_iff_witness :
  (getToken (withToken (verifiedToken "h.p.s" (VString ""))) (fresh aliceStore)).1
  = Returned (Some (verifiedToken "h.p.s" (VString "")), None).
Proof.
  apply (proj2 (getToken_accepts_iff
                  (withToken (verifiedToken "h.p.s" (VString "")))
                  (fresh aliceStore) (verifiedToken "h.p.s" (VString ""))));
    reflexivity.
Defined.

(** Against C2 as stated: a token whose subject claim is the empty string
    passes the token check. *)
Lemma getToken_accepts_empty_subject :
  let t := verifiedToken "eyJhbGciOi.eyJzdWIiOiIifQ.c2ln" (VString "") in
  claim (Claims t) "sub" = VString ""
  ∧ getToken (withToken t) (fresh emptyStore)
    = (Returned (Some t, None), fresh emptyStore).
Proof. split; vm_compute; reflexivity. Qed.

(** ** The authenticator middleware *)

Lemma noUsersCreated_not_generic w : noUsersCreated w ≠ notAuthenticated w.
Proof.
  intros Heq.
  apply (f_equal (λ x, m ← Payload x; m !! "message")) in Heq.
  vm_compute in Heq. discriminate.
Qed.

Section Middleware.
Context {S : Type} `{UserRepository S} (env : Env).
Implicit Types (σ : World S) (w : ResponseWriter) (r : Request)
  (next : Handler S).

Lemma Authenticator_reject next w r σ :
  getToken_valid (r_Context r) = false →
  Authenticator env next w r σ =
  (Returned (if decide (CountAll (store σ) = (0, None)) then noUsersCreated w
             else notAuthenticated w),
   logCall CallCountAll σ (store σ)).
Proof.
  intros Hv. unfold Authenticator.
  rewrite bind_run, getToken_reject by assumption.
  destruct (decide (CountAll (store σ) = (0, None))); reflexivity.
Qed.

Lemma Authenticator_accept next w r σ t :
  getToken_valid (r_Context r) = true →
  TokenCtxKey (r_Context r) = Some t →
  Authenticator env next w r σ =
  match contextWithUser (r_Context r) (Claims t) σ with
  | (Returned newCtx, σ1) =>
      match TouchToken env t with
      | (_, Some _) => (Returned (notAuthenticated w), σ1)
      | (newTokenString, None) =>
          next (Header_Set w "Authorization" newTokenString)
               (WithContext r newCtx) σ1
      end
  | (Panicked p, σ1) => (Panicked p, σ1)
  end.
Proof.
  intros Hv Ht. unfold Authenticator.
  rewrite bind_run, getToken_accept by assumption. rewrite Ht. simpl.
  rewrite bind_run.
  destruct (contextWithUser (r_Context r) (Claims t) σ) as [[newCtx|p] σ1];
    [|reflexivity].
  destruct (TouchToken env t) as [s [e|]]; reflexivity.
Qed.

Lemma contextWithUser_string ctx claims userName σ :
  claim claims "sub" = VString userName →
  contextWithUser ctx claims σ =
  (Returned (WithValue_user ctx (FindByUsername (store σ) userName).1),
   logCall (CallFindByUsername userName) σ (store σ)).
Proof.
  intros Hs. unfold contextWithUser. rewrite Hs. unfold_monad. simpl.
  destruct (FindByUsername (store σ) userName); reflexivity.
Qed.

Lemma contextWithUser_not_string ctx claims σ :
  (∀ userName, claim claims "sub" ≠ VString userName) →
  contextWithUser ctx claims σ = (Panicked InterfaceConversion, σ).
Proof.
  intros Hs. unfold contextWithUser.
  destruct (claim claims "sub") eqn:E; try reflexivity.
  exfalso. eapply Hs. reflexivity.
Qed.

(** C5.  When the token check fails, the middleware answers in one of two
    ways and no other: if the store reports zero users (count 0, no
    error) the response is 401 with the body ["message": "no users
    created"]; in every other case it is 401 "Not authenticated".  The
    next handler is not run in either case. *)
Theorem Authenticator_rejections next w r σ :
  getToken_valid (r_Context r) = false →
  let σ1 := logCall CallCountAll σ (store σ) in
  (CountAll (store σ) = (0, None) →
     getToken (r_Context r) σ = (Returned (None, Some ErrFirstTime), σ1)
     ∧ Authenticator env next w r σ =
       (Returned (RespondWithJSON w 401
                    {[ "message" := VString "no users created" ]}), σ1))
  ∧ (CountAll (store σ) ≠ (0, None) →
     getToken (r_Context r) σ =
       (Returned (None, Some (errors_New "invalid authentication")), σ1)
     ∧ Authenticator env next w r σ =
       (Returned (RespondWithError w 401 "Not authenticated"), σ1)).
Proof.
  intros Hv σ1. subst σ1.
  rewrite Authenticator_reject, getToken_reject by assumption.
  split; intros Hc;
    destruct (decide (CountAll (store σ) = (0, None))); try contradiction;
    split; reflexivity.
Qed.

(** C10.  When the token check fails and the count of users itself
    returns an error, the token check gives the generic "invalid
    authentication" error, whatever count came with the error, and the
    middleware answers 401 "Not authenticated": the response is neither
    the "no users created" body nor a 500, and it does not depend on the
    error of the store. *)
Theorem Authenticator_count_error next w r σ c e :
  getToken_valid (r_Context r) = false →
  CountAll (store σ) = (c, Some e) →
  let σ1 := logCall CallCountAll σ (store σ) in
  getToken (r_Context r) σ =
    (Returned (None, Some (errors_New "invalid authentication")), σ1)
  ∧ Authenticator env next w r σ =
    (Returned (RespondWithError w 401 "Not authenticated"), σ1)
  ∧ RespondWithError w 401 "Not authenticated" ≠ noUsersCreated w
  ∧ Status (RespondWithError w 401 "Not authenticated") = Some StatusUnauthorized.
Proof.
  intros Hv Hc σ1. subst σ1.
  rewrite Authenticator_reject, getToken_reject by assumption.
  rewrite Hc.
  destruct (decide ((c, Some e) = (0, None))) as [Heq|_]; [discriminate|].
  repeat split. intros Heq. symmetry in Heq.
  exact (noUsersCreated_not_generic w Heq).
Qed.
End Middleware.

Section MiddlewareSuccess.
Context {S : Type} `{UserRepository S} (env : Env).
Implicit Types (σ : World S) (w : ResponseWriter) (r : Request)
  (next : Handler S).


(** C9.  The subject is extracted by an unchecked type assertion: there
    is a token that the token check accepts (marked valid, subject claim
    present but a number, not a string) on which [contextWithUser]
    panics, and so does the middleware, instead of rejecting the request
    with a 401; the extraction is not defined on every accepted token. *)
Theorem contextWithUser_not_total :
  ∃ t : Token,
    Valid t = true
    ∧ claim (Claims t) "sub" ≠ VNil
    ∧ (∀ userName, claim (Claims t) "sub" ≠ VString userName)
    ∧ ∀ next w body σ,
        let ctx := {| TokenCtxKey := Some t; ErrorCtxKey := None;
                      userKey := None |} in
        let r := {| Body := body; r_Context := ctx |} in
        getToken ctx σ = (Returned (Some t, None), σ)
        ∧ contextWithUser ctx (Claims t) σ = (Panicked InterfaceConversion, σ)
        ∧ Authenticator env next w r σ = (Panicked InterfaceConversion, σ)
        ∧ Authenticator env next w r σ ≠
          (Returned (RespondWithError w 401 "Not authenticated"), σ).
Proof.
  exists {| Raw := "h.p.s"; Claims := {[ "sub" := VNumber 42 ]}; Valid := true |}.
  assert (Hsub : claim ({[ "sub" := VNumber 42 ]} : MapClaims) "sub" = VNumber 42)
    by reflexivity.
  simpl. rewrite Hsub.
  split; [reflexivity|]. split; [discriminate|]. split; [discriminate|].
  intros next w body σ.
  set (t := {| Raw := "h.p.s"; Claims := {[ "sub" := VNumber 42 ]}; Valid := true |}).
  set (ctx := {| TokenCtxKey := Some t; ErrorCtxKey := None; userKey := None |}).
  assert (Hv : getToken_valid ctx = true) by reflexivity.
  assert (Hp : contextWithUser ctx (Claims t) σ = (Panicked InterfaceConversion, σ)).
  { apply contextWithUser_not_string. intros u. simpl. rewrite Hsub. discriminate. }
  assert (Ha : Authenticator env next w {| Body := body; r_Context := ctx |} σ
               = (Panicked InterfaceConversion, σ)).
  { rewrite (Authenticator_accept env next w _ σ t); [|exact Hv|reflexivity].
    cbn [r_Context]. rewrite Hp. reflexivity. }
  split; [apply getToken_accept; exact Hv|]. split; [exact Hp|].
  split; [exact Ha|]. rewrite Ha. discriminate.
Qed.
End MiddlewareSuccess.

(** ** Concrete runs of the middleware *)

Lemma Authenticator_rejections_witness :
  (Authenticator plainEnv whoami emptyResponse (bare context_Background)
     (fresh emptyStore)).1
  = Returned (noUsersCreated emptyResponse)
  ∧ (Authenticator plainEnv whoami emptyResponse (bare context_Background)
       (fresh aliceStore)).1
    = Returned (notAuthenticated emptyResponse).
Proof.
  split.
  - pose proof (Authenticator_rejections plainEnv whoami emptyResponse
                  (bare context_Background) (fresh emptyStore) eq_refl)
      as [Hzero _].
    destruct Hzero as [_ Hrun]; [reflexivity|].
    rewrite Hrun. reflexivity.
  - pose proof (Authenticator_rejections plainEnv whoami emptyResponse
                  (bare context_Background) (fresh aliceStore) eq_refl)
      as [_ Hsome].
    destruct Hsome as [_ Hrun]; [vm_compute; discriminate|].
    rewrite Hrun. reflexivity.
Defined.

Lemma Authenticator_count_error_witness :
  (Authenticator plainEnv whoami emptyResponse (bare context_Background)
     (fresh (countFails emptyStore (errors_New "database is locked")))).1
  = Returned (notAuthenticated emptyResponse).
Proof.
  pose proof (Authenticator_count_error plainEnv whoami emptyResponse
                (bare context_Background)
                (fresh (countFails emptyStore (errors_New "database is locked")))
                0 (errors_New "database is locked") eq_refl) as Hthm.
  destruct Hthm as (_ & Hrun & _); [reflexivity|].
  rewrite Hrun. reflexivity.
Defined.



(** ** The login and first-admin handlers *)


Section LoginHandlers.
Context {S : Type} `{UserRepository S} (env : Env).
Implicit Types (σ : World S) (w : ResponseWriter) (r : Request).

Lemma handleLogin_unfold username password w r σ :
  handleLogin env username password w r σ =
  match validateLogin username password σ with
  | (Returned (_, Some _), σ1) =>
      (Returned (RespondWithError w 500
                   "Unknown error authentication user. Please try again"), σ1)
  | (Returned (None, None), σ1) => (Returned (invalidCredentials w), σ1)
  | (Returned (Some user, None), σ1) =>
      match CreateToken env user with
      | (_, Some _) =>
          (Returned (RespondWithError w 500
                       "Unknown error authenticating user. Please try again"), σ1)
      | (tokenString, None) =>
          (Returned (RespondWithJSON w 200
                       (loginPayload env username tokenString user)), σ1)
      end
  | (Panicked p, σ1) => (Panicked p, σ1)
  end.
Proof.
  unfold handleLogin. rewrite bind_run.
  destruct (validateLogin username password σ) as [[[[user|] [e|]]|p] σ1];
    try reflexivity.
  simpl. destruct (CreateToken env user) as [tokenString [e'|]]; reflexivity.
Qed.

Lemma Login_unfold w r σ data :
  Body r = BodyObject data →
  Login env w r σ =
  handleLogin env (default "" (data !! "username"))
    (default "" (data !! "password")) w r σ.
Proof.
  intros Hb. unfold Login, getCredentialsFromBody. rewrite Hb. reflexivity.
Qed.

Lemma createDefaultUser_unfold username password σ :
  createDefaultUser env username password σ =
  (Returned None,
   logCall (CallPut (firstAdmin env username password)) σ
     (Put (store σ) (firstAdmin env username password)).2).
Proof.
  unfold createDefaultUser. unfold_monad. simpl.
  fold (firstAdmin env username password).
  destruct (Put (store σ) (firstAdmin env username password)); reflexivity.
Qed.

Lemma CreateAdmin_unfold w r σ data :
  Body r = BodyObject data →
  CreateAdmin env w r σ =
  let username := default "" (data !! "username") in
  let password := default "" (data !! "password") in
  let σ1 := logCall CallCountAll σ (store σ) in
  match CountAll (store σ) with
  | (_, Some err) => (Returned (RespondWithError w 500 (Error err)), σ1)
  | (c, None) =>
      if decide (c > 0) then
        (Returned (RespondWithError w 403 "Cannot create another first admin"),
         σ1)
      else
        handleLogin env username password w r
          (logCall (CallPut (firstAdmin env username password)) σ1
             (Put (store σ) (firstAdmin env username password)).2)
  end.
Proof.
  intros Hb. unfold CreateAdmin, getCredentialsFromBody. rewrite Hb.
  rewrite bind_run. unfold callCountAll at 1. simpl.
  destruct (CountAll (store σ)) as [c [e|]]; [reflexivity|].
  destruct (decide (c > 0)); [reflexivity|].
  rewrite bind_run, createDefaultUser_unfold. reflexivity.
Qed.
End LoginHandlers.

(** The reference store meets the contract. *)
Lemma touch_sameAccount now id u : sameAccount u (touch now id u).
Proof.
  unfold touch, sameAccount. destruct (decide (ID u = id)); simpl; auto 10.
Qed.

Lemma MemStore_contract : StoreContract users.
Proof.
  split.
  - intros σ n u Hfind. simpl. rewrite Hfind. reflexivity.
  - intros σ n Hfind. simpl. rewrite Hfind. reflexivity.
  - reflexivity.
  - intros σ u. split; reflexivity.
  - intros σ id. simpl. induction (users σ) as [|u l IH]; simpl.
    + constructor.
    + constructor; [apply touch_sameAccount|exact IH].
Qed.

Section FirstAdmin.
Context {S : Type} `{UserRepository S} (contents : S → list User).
Context (contract : StoreContract contents).
Implicit Types (σ : World S) (w : ResponseWriter) (r : Request) (env : Env).


(** C8.  Two first-admin requests in sequence on a store that starts
    empty, with well-formed bodies and a signer that works: the first is
    answered 200 with a token; the second is answered 403 "Cannot create
    another first admin" after counting the users and nothing else, so
    it creates no user; and the store then holds exactly one user, an
    admin with the requested user name. *)
Theorem CreateAdmin_twice env w r σ data env2 w2 r2 data2 :
  contents (store σ) = [] →
  Body r = BodyObject data →
  Body r2 = BodyObject data2 →
  (∀ u, (CreateToken env u).2 = None) →
  ∃ w1 σ1 admin,
    CreateAdmin env w r σ = (Returned w1, σ1)
    ∧ Status w1 = Some 200
    ∧ (m ← Payload w1; m !! "token")
      = Some (VString (CreateToken env (firstAdmin env
                (default "" (data !! "username"))
                (default "" (data !! "password")))).1)
    ∧ CreateAdmin env2 w2 r2 σ1 =
      (Returned (RespondWithError w2 403 "Cannot create another first admin"),
       logCall CallCountAll σ1 (store σ1))
    ∧ contents (store σ1) = [admin]
    ∧ UserName admin = default "" (data !! "username")
    ∧ IsAdmin admin = true.
Proof.
  intros Hempty Hb Hb2 Hsign.
  set (username := default "" (data !! "username")).
  set (password := default "" (data !! "password")).
  set (u0 := firstAdmin env username password).
  (* the first request: count, create, log in *)
  rewrite (CreateAdmin_unfold env w r σ data Hb).
  rewrite (count_all contents contract), Hempty. simpl.
  fold username password u0.
  destruct (put_creates contents contract (store σ) u0) as [_ Hput].
  rewrite Hempty in Hput. simpl in Hput.
  rewrite handleLogin_unfold, validateLogin_unfold. simpl.
  assert (Hfind : FindByUsername (Put (store σ) u0).2 username = (Some u0, None)).
  { apply (find_present contents contract). rewrite Hput.
    unfold lookupUser. simpl. rewrite bool_decide_eq_true_2; reflexivity. }
  rewrite Hfind.
  destruct (decide (Password u0 = password)) as [_|Hne];
    [|exfalso; apply Hne; reflexivity].
  pose proof (Hsign u0) as Hs.
  destruct (CreateToken env u0) as [tokenString eo] eqn:Htok.
  simpl in Hs. subst eo.
  (* the store after the login of the new admin *)
  pose proof (update_touches contents contract (Put (store σ) u0).2 (ID u0))
    as Hupd.
  rewrite Hput in Hupd.
  remember (contents (UpdateLastLoginAt (Put (store σ) u0).2 (ID u0)).2)
    as after eqn:Hafter.
  destruct after as [|admin rest]; [inversion Hupd|].
  apply Forall2_cons_1 in Hupd as [Hsame Hrest].
  apply Forall2_nil_inv_l in Hrest. subst rest.
  destruct Hsame as (_ & Hname & _ & _ & _ & Hadmin).
  eexists _, _, admin. split; [reflexivity|].
  split; [reflexivity|]. split; [reflexivity|].
  cbn [store logCall].
  split; [|split; [symmetry; exact Hafter|split; [symmetry; exact Hname
                                                |symmetry; exact Hadmin]]].
  (* the second request stops at the count *)
  rewrite (CreateAdmin_unfold env2 w2 r2 _ data2 Hb2).
  cbn [store logCall].
  rewrite (count_all contents contract), <- Hafter. simpl.
  reflexivity.
Qed.
End FirstAdmin.

(** ** Concrete runs of the login and first-admin handlers *)



Lemma CreateAdmin_twice_witness :
  ∃ w1 σ1 admin,
    CreateAdmin plainEnv emptyResponse (credentials "admin" "s3cret")
      (fresh emptyStore) = (Returned w1, σ1)
    ∧ Status w1 = Some 200
    ∧ (m ← Payload w1; m !! "token") = Some (VString "token:admin")
    ∧ CreateAdmin plainEnv emptyResponse (credentials "admin" "s3cret") σ1
      = (Returned (RespondWithError emptyResponse 403
                     "Cannot create another first admin"),
         logCall CallCountAll σ1 (store σ1))
    ∧ users (store σ1) = [admin]
    ∧ UserName admin = "admin"
    ∧ IsAdmin admin = true.
Proof.
  exact (CreateAdmin_twice users MemStore_contract plainEnv emptyResponse
           (credentials "admin" "s3cret") (fresh emptyStore)
           {[ "username" := "admin"; "password" := "s3cret" ]}
           plainEnv emptyResponse (credentials "admin" "s3cret")
           {[ "username" := "admin"; "password" := "s3cret" ]}
           eq_refl eq_refl eq_refl (λ u, eq_refl)).
Defined.

(** C1 (where the code departs from it).  On a store whose create fails
    with "disk full", the first-admin handler does not answer 500 with
    that message: [createDefaultUser] drops the error of [Put] and returns
    nil, so the handler goes on to the login flow, which finds no user and
    answers 401 "Invalid username or password". *)
Theorem CreateAdmin_put_failure :
  let σ := putFails emptyStore (errors_New "disk full") in
  let admin := firstAdmin plainEnv "admin" "s3cret" in
  Put σ admin = (Some (errors_New "disk full"), σ)
  ∧ createDefaultUser plainEnv "admin" "s3cret" (fresh σ)
    = (Returned None, {| store := σ; history := [CallPut admin] |})
  ∧ CreateAdmin plainEnv emptyResponse (credentials "admin" "s3cret") (fresh σ)
    = (Returned (RespondWithError emptyResponse 401 "Invalid username or password"),
       {| store := σ;
          history := [CallCountAll; CallPut admin; CallFindByUsername "admin"] |})
  ∧ CreateAdmin plainEnv emptyResponse (credentials "admin" "s3cret") (fresh σ)
    ≠ (Returned (RespondWithError emptyResponse 500 "disk full"),
       {| store := σ; history := [CallCountAll; CallPut admin] |}).
Proof.
  intros σ admin. split; [reflexivity|]. split; [reflexivity|].
  assert (Hrun :
    CreateAdmin plainEnv emptyResponse (credentials "admin" "s3cret") (fresh σ)
    = (Returned (RespondWithError emptyResponse 401 "Invalid username or password"),
       {| store := σ;
          history := [CallCountAll; CallPut admin; CallFindByUsername "admin"] |}))
    by (vm_compute; reflexivity).
  split; [exact Hrun|]. rewrite Hrun. intros Heq. inversion Heq.
Qed.

(** * Further properties of the handlers *)

(** ** The login handler, end to end *)

Section LoginRuns.
Context {S : Type} `{UserRepository S} (env : Env).
Implicit Types (σ : World S) (w : ResponseWriter) (r : Request).

(** [handleLogin] by the answer of the lookup and of the signer. *)
Lemma handleLogin_run username password w r σ :
  handleLogin env username password w r σ =
  let σ1 := logCall (CallFindByUsername username) σ (store σ) in
  match FindByUsername (store σ) username with
  | (_, Some ErrNotFound) => (Returned (invalidCredentials w), σ1)
  | (_, Some _) =>
      (Returned (RespondWithError w 500
                   "Unknown error authentication user. Please try again"), σ1)
  | (None, None) => (Panicked NilDereference, σ1)
  | (Some u, None) =>
      if decide (Password u = password) then
        let σ2 := logCall (CallUpdateLastLoginAt (ID u)) σ1
                    (UpdateLastLoginAt (store σ) (ID u)).2 in
        match CreateToken env u with
        | (_, Some _) =>
            (Returned (RespondWithError w 500
                         "Unknown error authenticating user. Please try again"),
             σ2)
        | (tokenString, None) =>
            (Returned (RespondWithJSON w 200
                         (loginPayload env username tokenString u)), σ2)
        end
      else (Returned (invalidCredentials w), σ1)
  end.
Proof.
  rewrite handleLogin_unfold, validateLogin_unfold. simpl.
  destruct (FindByUsername (store σ) username) as [[u|] [[| |msg]|]];
    try reflexivity.
  destruct (decide (Password u = password)); reflexivity.
Qed.

Lemma Login_malformed w r σ :
  Body r = BodyMalformed →
  Login env w r σ
  = (Returned (RespondWithError w 422 "Invalid request payload"), σ).
Proof.
  intros Hb. unfold Login, getCredentialsFromBody. rewrite Hb. reflexivity.
Qed.

(** A body that does not decode is answered 422 "Invalid request payload"
    by the login handler and by the first-admin handler alike, and neither
    handler has then made any call to the repository. *)
Theorem malformed_body_is_422 w r σ :
  Body r = BodyMalformed →
  Login env w r σ
  = (Returned (RespondWithError w 422 "Invalid request payload"), σ)
  ∧ CreateAdmin env w r σ
    = (Returned (RespondWithError w 422 "Invalid request payload"), σ).
Proof.
  intros Hb. unfold Login, CreateAdmin, getCredentialsFromBody.
  rewrite Hb. split; reflexivity.
Qed.

(** A lookup that fails for a reason other than not-found is answered 500
    with a fixed text: the response is the same whatever the error of the
    store says, and the store is left as it was. *)
Theorem Login_lookup_failure_is_opaque w r σ data e :
  Body r = BodyObject data →
  (FindByUsername (store σ) (default "" (data !! "username"))).2 = Some e →
  e ≠ ErrNotFound →
  Login env w r σ =
  (Returned (RespondWithError w 500
               "Unknown error authentication user. Please try again"),
   logCall (CallFindByUsername (default "" (data !! "username"))) σ (store σ)).
Proof.
  intros Hb He Hne. rewrite (Login_unfold env w r σ data Hb), handleLogin_run.
  simpl. destruct (FindByUsername (store σ) (default "" (data !! "username")))
    as [uo eo].
  simpl in He. subst eo. destruct uo, e; try reflexivity; contradiction.
Qed.

(** With matching credentials and a signer that signs, the login is
    answered 200 whatever [UpdateLastLoginAt] returned; the payload carries
    the token of the signer, the name and admin flag of the stored user and
    the user name as it was submitted. *)
Theorem Login_success w r σ data u tokenString :
  Body r = BodyObject data →
  FindByUsername (store σ) (default "" (data !! "username")) = (Some u, None) →
  Password u = default "" (data !! "password") →
  CreateToken env u = (tokenString, None) →
  ∃ payload,
    Login env w r σ =
    (Returned (RespondWithJSON w 200 payload),
     {| store := (UpdateLastLoginAt (store σ) (ID u)).2;
        history := (history σ ++
                    [CallFindByUsername (default "" (data !! "username"));
                     CallUpdateLastLoginAt (ID u)])%list |})
    ∧ payload !! "token" = Some (VString tokenString)
    ∧ payload !! "name" = Some (VString (Name u))
    ∧ payload !! "username" = Some (VString (default "" (data !! "username")))
    ∧ payload !! "isAdmin" = Some (VBool (IsAdmin u))
    ∧ payload !! "version" = Some (VString (consts_Version env))
    ∧ payload !! "error" = None.
Proof.
  intros Hb Hfind Hpw Htok.
  rewrite (Login_unfold env w r σ data Hb), handleLogin_run.
  simpl. rewrite Hfind.
  destruct (decide (Password u = default "" (data !! "password")));
    [|contradiction].
  rewrite Htok. eexists. split.
  - unfold RespondWithJSON, logCall. simpl. rewrite <- app_assoc. reflexivity.
  - repeat split; reflexivity.
Qed.

(** When the credentials match but the signer fails, the login is answered
    500, and the last-login update has been made all the same: it comes
    before the token is signed. *)
Theorem Login_sign_failure w r σ data u tokenString e :
  Body r = BodyObject data →
  FindByUsername (store σ) (default "" (data !! "username")) = (Some u, None) →
  Password u = default "" (data !! "password") →
  CreateToken env u = (tokenString, Some e) →
  Login env w r σ =
  (Returned (RespondWithError w 500
               "Unknown error authenticating user. Please try again"),
   {| store := (UpdateLastLoginAt (store σ) (ID u)).2;
      history := (history σ ++
                  [CallFindByUsername (default "" (data !! "username"));
                   CallUpdateLastLoginAt (ID u)])%list |}).
Proof.
  intros Hb Hfind Hpw Htok.
  rewrite (Login_unfold env w r σ data Hb), handleLogin_run.
  simpl. rewrite Hfind.
  destruct (decide (Password u = default "" (data !! "password")));
    [|contradiction].
  rewrite Htok. unfold logCall. simpl. rewrite <- app_assoc. reflexivity.
Qed.
(** The login handler hands out a token only for matching credentials:
    if its response carries a ["token"] field, the body decoded, the lookup
    found a user without error, the stored password equals the submitted
    one, the signer succeeded, the token is the one it made and the status
    is 200. *)
Theorem Login_token_needs_matching_credentials w r σ w' σ' tok :
  Login env w r σ = (Returned w', σ') →
  (m ← Payload w'; m !! "token") = Some tok →
  ∃ data u tokenString,
    Body r = BodyObject data
    ∧ FindByUsername (store σ) (default "" (data !! "username")) = (Some u, None)
    ∧ Password u = default "" (data !! "password")
    ∧ CreateToken env u = (tokenString, None)
    ∧ tok = VString tokenString
    ∧ Status w' = Some 200.
Proof.
  intros Hrun Htok. destruct (Body r) as [|data] eqn:Hb.
  - pose proof (Login_malformed w r σ Hb) as Hm.
    rewrite Hm in Hrun. inversion Hrun; subst. discriminate Htok.
  - rewrite (Login_unfold env w r σ data Hb), handleLogin_run in Hrun.
    simpl in Hrun.
    destruct (FindByUsername (store σ) (default "" (data !! "username")))
      as [[u|] [[| |msg]|]] eqn:Hfind;
      try (inversion Hrun; subst; discriminate Htok).
    destruct (decide (Password u = default "" (data !! "password")))
      as [Hpw|Hpw];
      [|inversion Hrun; subst; discriminate Htok].
    destruct (CreateToken env u) as [tokenString [e'|]] eqn:Hsign;
      [inversion Hrun; subst; discriminate Htok|].
    inversion Hrun; subst. exists data, u, tokenString.
    simpl in Htok. vm_compute in Htok. inversion Htok; subst.
    repeat split; try assumption; reflexivity.
Qed.

(** An unknown user name and a wrong password for a known one cannot be
    told apart from the response: both logins are answered with the same
    401, and neither changes the store. *)
Theorem Login_no_enumeration w r1 r2 σ data1 data2 u :
  Body r1 = BodyObject data1 →
  Body r2 = BodyObject data2 →
  (FindByUsername (store σ) (default "" (data1 !! "username"))).2
    = Some ErrNotFound →
  FindByUsername (store σ) (default "" (data2 !! "username")) = (Some u, None) →
  Password u ≠ default "" (data2 !! "password") →
  (Login env w r1 σ).1 = (Login env w r2 σ).1
  ∧ (Login env w r1 σ).1
    = Returned (RespondWithError w 401 "Invalid username or password")
  ∧ store (Login env w r1 σ).2 = store σ
  ∧ store (Login env w r2 σ).2 = store σ.
Proof.
  intros Hb1 Hb2 Hnone Hsome Hpw.
  rewrite (Login_unfold env w r1 σ data1 Hb1), (Login_unfold env w r2 σ data2 Hb2).
  rewrite !handleLogin_run. simpl.
  rewrite Hsome.
  destruct (FindByUsername (store σ) (default "" (data1 !! "username")))
    as [uo eo].
  simpl in Hnone. subst eo.
  destruct (decide (Password u = default "" (data2 !! "password")));
    [contradiction|].
  destruct uo; repeat split; reflexivity.
Qed.

(** Every run of the login handler: it answers 200, 401, 422 or 500, or
    it panics, which happens exactly when the repository returns neither
    a user nor an error.  It looks a user up at
    most once, updates a last-login time at most once and only after the
    lookup, and never counts or creates users. *)
Theorem Login_outcomes w r σ :
  (match (Login env w r σ).1 with
   | Returned w' =>
       Status w' = Some 200 ∨ Status w' = Some 401 ∨ Status w' = Some 422
       ∨ Status w' = Some 500
   | Panicked p =>
       p = NilDereference
       ∧ ∃ data, Body r = BodyObject data
                 ∧ FindByUsername (store σ) (default "" (data !! "username"))
                   = (None, None)
   end)
  ∧ ∃ calls,
      history (Login env w r σ).2 = (history σ ++ calls)%list
      ∧ (calls = [] ∧ store (Login env w r σ).2 = store σ
         ∨ (∃ n, calls = [CallFindByUsername n])
           ∧ store (Login env w r σ).2 = store σ
         ∨ ∃ n id, calls = [CallFindByUsername n; CallUpdateLastLoginAt id]
                   ∧ store (Login env w r σ).2
                     = (UpdateLastLoginAt (store σ) id).2).
Proof.
  destruct (Body r) as [|data] eqn:Hb.
  - rewrite (Login_malformed w r σ Hb). simpl. split; [auto 10|].
    exists []. rewrite app_nil_r. auto.
  - rewrite (Login_unfold env w r σ data Hb), handleLogin_run. simpl.
    destruct (FindByUsername (store σ) (default "" (data !! "username")))
      as [[u|] [[| |msg]|]] eqn:Hfind; simpl;
      try solve [split; [auto 10|]; eexists; split; [reflexivity|]; eauto 10].
    + destruct (decide (Password u = default "" (data !! "password"))).
      * destruct (CreateToken env u) as [tokenString [e'|]]; simpl;
          (split; [auto 10|]);
          exists [CallFindByUsername (default "" (data !! "username"));
                  CallUpdateLastLoginAt (ID u)];
          (split; [rewrite <- app_assoc; reflexivity|]); eauto 10.
      * simpl. split; [auto 10|]. eexists. split; [reflexivity|]. eauto 10.
    + split; [eauto 10|]. eexists. split; [reflexivity|]. eauto 10.
Qed.

(** The calls [handleLogin] makes: the lookup, and at most the update. *)
Lemma handleLogin_calls username password w r σ :
  ∃ calls,
    history (handleLogin env username password w r σ).2
    = (history σ ++ calls)%list
    ∧ ∀ c, c ∈ calls →
        c = CallFindByUsername username ∨ ∃ id, c = CallUpdateLastLoginAt id.
Proof.
  rewrite handleLogin_run. simpl.
  destruct (FindByUsername (store σ) username) as [[u|] [[| |msg]|]];
    try (exists [CallFindByUsername username]; split; [reflexivity|];
         intros c Hin; apply list_elem_of_singleton in Hin; auto).
  destruct (decide (Password u = password)).
  - exists [CallFindByUsername username; CallUpdateLastLoginAt (ID u)].
    split.
    + destruct (CreateToken env u) as [t [e'|]]; simpl;
        rewrite <- app_assoc; reflexivity.
    + intros c Hin. apply elem_of_cons in Hin as [->|Hin]; [auto|].
      apply list_elem_of_singleton in Hin. eauto.
  - exists [CallFindByUsername username]. split; [reflexivity|].
    intros c Hin. apply list_elem_of_singleton in Hin. auto.
Qed.

Lemma CreateAdmin_malformed w r σ :
  Body r = BodyMalformed →
  CreateAdmin env w r σ
  = (Returned (RespondWithError w 422 "Invalid request payload"), σ).
Proof.
  intros Hb. unfold CreateAdmin, getCredentialsFromBody. rewrite Hb. reflexivity.
Qed.
End LoginRuns.

(** ** The first-admin handler, for any repository *)

Section CreateAdminRuns.
Context {S : Type} `{UserRepository S} (env : Env).
Implicit Types (σ : World S) (w : ResponseWriter) (r : Request).

(** The gate of the first-admin handler: when the count of users fails,
    the answer is 500 and carries the text of the store's error; when the
    count is positive the answer is 403.  In both cases the count is the
    only call made and the store is left as it was. *)
Theorem CreateAdmin_gate w r σ data c :
  Body r = BodyObject data →
  (∀ e, CountAll (store σ) = (c, Some e) →
     CreateAdmin env w r σ
     = (Returned (RespondWithError w 500 (Error e)),
        {| store := store σ; history := (history σ ++ [CallCountAll])%list |}))
  ∧ (CountAll (store σ) = (c, None) → c > 0 →
     CreateAdmin env w r σ
     = (Returned (RespondWithError w 403 "Cannot create another first admin"),
        {| store := store σ; history := (history σ ++ [CallCountAll])%list |})).
Proof.
  intros Hb. split.
  - intros e Hc. rewrite (CreateAdmin_unfold env w r σ data Hb), Hc.
    reflexivity.
  - intros Hc Hpos. rewrite (CreateAdmin_unfold env w r σ data Hb), Hc. simpl.
    destruct (decide (c > 0)); [reflexivity|contradiction].
Qed.

(** The first-admin handler creates a user exactly when the body decodes
    and the count of users returns no error and a count that is not
    positive; it then calls [Put] once, right after the count, with an
    admin that has the submitted name and, verbatim, the submitted
    password. *)
Theorem CreateAdmin_creates_iff w r σ :
  ∃ calls,
    history (CreateAdmin env w r σ).2 = (history σ ++ calls)%list
    ∧ ((∃ u, CallPut u ∈ calls) ↔
       ∃ data c, Body r = BodyObject data
                 ∧ CountAll (store σ) = (c, None) ∧ ¬ c > 0)
    ∧ ∀ u, CallPut u ∈ calls →
        ∃ data rest,
          Body r = BodyObject data
          ∧ calls = CallCountAll :: CallPut u :: rest
          ∧ (∀ u', CallPut u' ∉ rest)
          ∧ IsAdmin u = true
          ∧ UserName u = default "" (data !! "username")
          ∧ Password u = default "" (data !! "password").
Proof.
  destruct (Body r) as [|data] eqn:Hb.
  - pose proof (CreateAdmin_malformed env w r σ Hb) as Hrun.
    rewrite Hrun. exists []. rewrite app_nil_r. split; [reflexivity|].
    split; [split|].
    + intros [u Hin]. inversion Hin.
    + intros (data & c & Hd & _). discriminate.
    + intros u Hin. inversion Hin.
  - rewrite (CreateAdmin_unfold env w r σ data Hb). simpl.
    destruct (CountAll (store σ)) as [c [e|]] eqn:Hc.
    + exists [CallCountAll]. split; [reflexivity|]. split; [split|].
      * intros [u Hin]. apply list_elem_of_singleton in Hin. discriminate.
      * intros (d & c' & _ & Hc' & _). discriminate.
      * intros u Hin. apply list_elem_of_singleton in Hin. discriminate.
    + destruct (decide (c > 0)) as [Hpos|Hnpos].
      * exists [CallCountAll]. split; [reflexivity|]. split; [split|].
        -- intros [u Hin]. apply list_elem_of_singleton in Hin. discriminate.
        -- intros (d & c' & _ & Hc' & Hn). inversion Hc'; subst. contradiction.
        -- intros u Hin. apply list_elem_of_singleton in Hin. discriminate.
      * set (username := default "" (data !! "username")).
        set (password := default "" (data !! "password")).
        set (u0 := firstAdmin env username password).
        set (σ2 := logCall (CallPut u0) _ _).
        destruct (handleLogin_calls env username password w r σ2)
          as (rest & Hhist & Hrest).
        exists (CallCountAll :: CallPut u0 :: rest).
        split.
        { rewrite Hhist. subst σ2. simpl. rewrite <- !app_assoc. reflexivity. }
        assert (Hno : ∀ u', CallPut u' ∉ rest).
        { intros u' Hin. destruct (Hrest _ Hin) as [Heq|[id Heq]]; discriminate. }
        split; [split|].
        -- intros _. exists data, c. auto.
        -- intros _. exists u0. apply elem_of_cons; right. apply elem_of_cons; left. reflexivity.
        -- intros u Hin. exists data, rest.
           apply elem_of_cons in Hin as [Heq|Hin]; [discriminate|].
           apply elem_of_cons in Hin as [Heq|Hin];
             [|exfalso; exact (Hno u Hin)].
           inversion Heq; subst u. repeat split; auto.
Qed.
End CreateAdminRuns.

(** ** The middleware, for any repository and any next handler *)

Section MiddlewareRuns.
Context {S : Type} `{UserRepository S} (env : Env).
Implicit Types (σ : World S) (w : ResponseWriter) (r : Request)
  (next : Handler S).

(** The three outcomes of the middleware.  Either it forwards: the token
    verified, its subject is a string, the refresh succeeded, and the next
    handler runs on the response with the new [Authorization] header and on
    the request with the looked-up user bound.  Or it answers by itself,
    and then always with status 401, one of its two bodies, the store
    untouched.  Or the subject of an accepted token is not a
    string and it panics on the type assertion; it never panics on a nil
    token. *)
Theorem Authenticator_outcomes next w r σ :
  (∃ t newTokenString userName,
     TokenCtxKey (r_Context r) = Some t
     ∧ Valid t = true
     ∧ claim (Claims t) "sub" = VString userName
     ∧ TouchToken env t = (newTokenString, None)
     ∧ Authenticator env next w r σ =
       next (Header_Set w "Authorization" newTokenString)
         (WithContext r (WithValue_user (r_Context r)
                           (FindByUsername (store σ) userName).1))
         (logCall (CallFindByUsername userName) σ (store σ)))
  ∨ (∃ response σ1,
       Authenticator env next w r σ = (Returned response, σ1)
       ∧ (response = noUsersCreated w ∨ response = notAuthenticated w)
       ∧ Status response = Some 401
       ∧ store σ1 = store σ)
  ∨ (Authenticator env next w r σ = (Panicked InterfaceConversion, σ)
     ∧ ∃ t, TokenCtxKey (r_Context r) = Some t
            ∧ ∀ userName, claim (Claims t) "sub" ≠ VString userName).
Proof.
  destruct (getToken_valid (r_Context r)) eqn:Hv.
  - pose proof Hv as Hspec.
    apply getToken_valid_spec in Hspec as (_ & t & Ht & Hval & _).
    rewrite (Authenticator_accept env next w r σ t Hv Ht).
    destruct (claim (Claims t) "sub") as [|userName|n|b] eqn:Hsub.
    2: { rewrite (contextWithUser_string _ _ userName σ Hsub).
         destruct (TouchToken env t) as [s [e|]] eqn:Htouch.
         - right; left. eexists _, _. split; [reflexivity|].
           split; [right; reflexivity|]. repeat split; reflexivity.
         - left. exists t, s, userName. repeat split; assumption || reflexivity. }
    all: right; right;
      rewrite contextWithUser_not_string
        by (intros u; rewrite Hsub; discriminate);
      split; [reflexivity|]; exists t; split; [assumption|];
      intros u; rewrite Hsub; discriminate.
  - right; left. rewrite (Authenticator_reject env next w r σ Hv).
    eexists _, _. split; [reflexivity|].
    destruct (decide (CountAll (store σ) = (0, None)));
      repeat split; auto.
Qed.

(** The middleware only reads the repository: composed with a next
    handler that leaves the store as it is, it leaves the store as it is,
    on every outcome. *)
Theorem Authenticator_preserves_store next w r σ :
  (∀ w' r' σ', store (next w' r' σ').2 = store σ') →
  store (Authenticator env next w r σ).2 = store σ.
Proof.
  intros Hnext.
  destruct (getToken_valid (r_Context r)) eqn:Hv.
  - pose proof Hv as Hspec.
    apply getToken_valid_spec in Hspec as (_ & t & Ht & _ & _).
    rewrite (Authenticator_accept env next w r σ t Hv Ht).
    destruct (claim (Claims t) "sub") as [|userName|n|b] eqn:Hsub.
    2: { rewrite (contextWithUser_string _ _ userName σ Hsub).
         destruct (TouchToken env t) as [s [e|]]; [reflexivity|].
         rewrite Hnext. reflexivity. }
    all: rewrite contextWithUser_not_string
           by (intros u; rewrite Hsub; discriminate);
         reflexivity.
  - rewrite (Authenticator_reject env next w r σ Hv). reflexivity.
Qed.

(** A verified token is forwarded whether or not its subject names a user
    of the store, and without counting the users: when the lookup fails,
    the request goes on with a nil user bound in its context. *)
Theorem Authenticator_unknown_subject next w r σ t userName newTokenString e :
  getToken_valid (r_Context r) = true →
  TokenCtxKey (r_Context r) = Some t →
  claim (Claims t) "sub" = VString userName →
  TouchToken env t = (newTokenString, None) →
  FindByUsername (store σ) userName = (None, Some e) →
  Authenticator env next w r σ =
  next (Header_Set w "Authorization" newTokenString)
    (WithContext r (WithValue_user (r_Context r) None))
    {| store := store σ;
       history := (history σ ++ [CallFindByUsername userName])%list |}.
Proof.
  intros Hv Ht Hsub Htouch Hfind.
  rewrite (Authenticator_accept env next w r σ t Hv Ht).
  rewrite (contextWithUser_string _ _ userName σ Hsub), Htouch, Hfind.
  reflexivity.
Qed.
End MiddlewareRuns.

(** ** First admin, then login, on a store that meets the contract *)

Section AfterFirstAdmin.
Context {S : Type} `{UserRepository S} (contents : S → list User).
Context (contract : StoreContract contents).
Implicit Types (σ : World S) (w : ResponseWriter) (r : Request) (env : Env).

(** What a first-admin request leaves in a store that was empty, whether
    or not the token could be signed. *)
Lemma CreateAdmin_leaves_admin env w r σ data :
  contents (store σ) = [] →
  Body r = BodyObject data →
  let u0 := firstAdmin env (default "" (data !! "username"))
              (default "" (data !! "password")) in
  ∃ admin,
    contents (store (CreateAdmin env w r σ).2) = [admin]
    ∧ sameAccount u0 admin
    ∧ (CreateAdmin env w r σ).1 =
      match CreateToken env u0 with
      | (_, Some _) =>
          Returned (RespondWithError w 500
                      "Unknown error authenticating user. Please try again")
      | (tokenString, None) =>
          Returned (RespondWithJSON w 200
                      (loginPayload env (default "" (data !! "username"))
                         tokenString u0))
      end.
Proof.
  intros Hempty Hb u0.
  set (username := default "" (data !! "username")) in *.
  set (password := default "" (data !! "password")) in *.
  rewrite (CreateAdmin_unfold env w r σ data Hb).
  rewrite (count_all contents contract), Hempty. simpl.
  fold username password u0.
  destruct (put_creates contents contract (store σ) u0) as [_ Hput].
  rewrite Hempty in Hput. simpl in Hput.
  rewrite handleLogin_run. simpl.
  assert (Hfind : FindByUsername (Put (store σ) u0).2 username = (Some u0, None)).
  { apply (find_present contents contract). rewrite Hput.
    unfold lookupUser. simpl. rewrite bool_decide_eq_true_2; reflexivity. }
  rewrite Hfind.
  destruct (decide (Password u0 = password)) as [_|Hne];
    [|exfalso; apply Hne; reflexivity].
  pose proof (update_touches contents contract (Put (store σ) u0).2 (ID u0))
    as Hupd.
  rewrite Hput in Hupd.
  remember (contents (UpdateLastLoginAt (Put (store σ) u0).2 (ID u0)).2)
    as after eqn:Hafter.
  destruct after as [|admin rest]; [inversion Hupd|].
  apply Forall2_cons_1 in Hupd as [Hsame Hrest].
  apply Forall2_nil_inv_l in Hrest. subst rest.
  exists admin.
  destruct (CreateToken env u0) as [tokenString [e|]];
    (split; [symmetry; exact Hafter|split; [exact Hsame|reflexivity]]).
Qed.

(** After the first admin was created on an empty store, a login with the
    same user name succeeds exactly with the same password: with it the
    answer is 200 and says the user is an admin, with the display name
    the creation derived; with any other password it is the generic
    401. *)
Theorem Login_after_CreateAdmin env w r σ data env' w' r' data' :
  contents (store σ) = [] →
  Body r = BodyObject data →
  Body r' = BodyObject data' →
  default "" (data' !! "username") = default "" (data !! "username") →
  (∀ u, (CreateToken env' u).2 = None) →
  let σ1 := (CreateAdmin env w r σ).2 in
  (default "" (data' !! "password") = default "" (data !! "password") →
   ∃ payload,
     (Login env' w' r' σ1).1 = Returned (RespondWithJSON w' 200 payload)
     ∧ payload !! "isAdmin" = Some (VBool true)
     ∧ payload !! "name"
       = Some (VString (strings_Title env (default "" (data !! "username")))))
  ∧ (default "" (data' !! "password") ≠ default "" (data !! "password") →
     (Login env' w' r' σ1).1
     = Returned (RespondWithError w' 401 "Invalid username or password")).
Proof.
  intros Hempty Hb Hb' Hname Hsign σ1.
  destruct (CreateAdmin_leaves_admin env w r σ data Hempty Hb)
    as (admin & Hcontents & Hsame & _).
  destruct Hsame as (_ & Huser & Hdisplay & _ & Hpw & Hadmin).
  simpl in Huser, Hdisplay, Hpw, Hadmin.
  assert (Hfind : FindByUsername (store σ1) (default "" (data' !! "username"))
                  = (Some admin, None)).
  { apply (find_present contents contract). subst σ1. rewrite Hcontents.
    unfold lookupUser. simpl.
    rewrite bool_decide_eq_true_2; [reflexivity|congruence]. }
  rewrite (Login_unfold env' w' r' σ1 data' Hb'), handleLogin_run.
  simpl. rewrite Hfind. split.
  - intros Hsame.
    destruct (decide (Password admin = default "" (data' !! "password")))
      as [_|Hne]; [|exfalso; apply Hne; congruence].
    pose proof (Hsign admin) as Hs.
    destruct (CreateToken env' admin) as [tokenString eo]. simpl in Hs.
    subst eo. simpl. eexists. split; [reflexivity|].
    split.
    + transitivity (Some (VBool (IsAdmin admin))); [reflexivity|congruence].
    + transitivity (Some (VString (Name admin))); [reflexivity|congruence].
  - intros Hdiff.
    destruct (decide (Password admin = default "" (data' !! "password")))
      as [Heq|_]; [exfalso; apply Hdiff; congruence|reflexivity].
Qed.

(** Creating the first admin and signing its token are not one step: when
    the signer fails, the first-admin request is answered 500, but the
    admin has been created, and the next first-admin request is refused
    with 403. *)
Theorem CreateAdmin_sign_failure_keeps_admin env w r σ data env2 w2 r2 data2 :
  contents (store σ) = [] →
  Body r = BodyObject data →
  Body r2 = BodyObject data2 →
  (∀ u, (CreateToken env u).2 ≠ None) →
  ∃ admin,
    (CreateAdmin env w r σ).1
    = Returned (RespondWithError w 500
                  "Unknown error authenticating user. Please try again")
    ∧ contents (store (CreateAdmin env w r σ).2) = [admin]
    ∧ UserName admin = default "" (data !! "username")
    ∧ IsAdmin admin = true
    ∧ (CreateAdmin env2 w2 r2 (CreateAdmin env w r σ).2).1
      = Returned (RespondWithError w2 403 "Cannot create another first admin").
Proof.
  intros Hempty Hb Hb2 Hsign.
  destruct (CreateAdmin_leaves_admin env w r σ data Hempty Hb)
    as (admin & Hcontents & Hsame & Hresp).
  destruct Hsame as (_ & Huser & _ & _ & _ & Hadmin).
  simpl in Huser, Hadmin.
  exists admin. split.
  { rewrite Hresp.
    pose proof (Hsign (firstAdmin env (default "" (data !! "username"))
                         (default "" (data !! "password")))) as Hs.
    destruct (CreateToken env _) as [tokenString [e|]];
      [reflexivity|contradiction]. }
  split; [exact Hcontents|]. split; [congruence|]. split; [congruence|].
  rewrite (CreateAdmin_unfold env2 w2 r2 _ data2 Hb2).
  rewrite (count_all contents contract), Hcontents. reflexivity.
Qed.
End AfterFirstAdmin.

(** ** Concrete runs for the further properties *)

Lemma malformed_body_is_422_witness :
  (Login plainEnv emptyResponse (bare context_Background) (fresh aliceStore)).1
  = Returned (RespondWithError emptyResponse 422 "Invalid request payload")
  ∧ (CreateAdmin plainEnv emptyResponse (bare context_Background)
       (fresh emptyStore)).2 = fresh emptyStore.
Proof.
  split.
  - rewrite (proj1 (malformed_body_is_422 plainEnv emptyResponse
                      (bare context_Background) (fresh aliceStore) eq_refl)).
    reflexivity.
  - rewrite (proj2 (malformed_body_is_422 plainEnv emptyResponse
                      (bare context_Background) (fresh emptyStore) eq_refl)).
    reflexivity.
Defined.

Lemma Login_lookup_failure_is_opaque_witness :
  (Login plainEnv emptyResponse (credentials "alice" "s3cret")
     (fresh (findFails aliceStore (errors_New "database is locked")))).1
  = Returned (RespondWithError emptyResponse 500
                "Unknown error authentication user. Please try again").
Proof.
  rewrite (Login_lookup_failure_is_opaque plainEnv emptyResponse
             (credentials "alice" "s3cret")
             (fresh (findFails aliceStore (errors_New "database is locked")))
             {[ "username" := "alice"; "password" := "s3cret" ]}
             (errors_New "database is locked"));
    [reflexivity|reflexivity|reflexivity|discriminate].
Defined.

Lemma Login_success_witness :
  ∃ payload,
    Login plainEnv emptyResponse (credentials "alice" "s3cret") (fresh aliceStore)
    = (Returned (RespondWithJSON emptyResponse 200 payload),
       {| store := {| users := [touch 1700000500 "u-1" alice];
                      clock := 1700000500 |};
          history := [CallFindByUsername "alice"; CallUpdateLastLoginAt "u-1"] |})
    ∧ payload !! "token" = Some (VString "token:alice")
    ∧ payload !! "isAdmin" = Some (VBool false).
Proof.
  destruct (Login_success plainEnv emptyResponse (credentials "alice" "s3cret")
              (fresh aliceStore)
              {[ "username" := "alice"; "password" := "s3cret" ]}
              alice "token:alice")
    as (payload & Hrun & Htoken & _ & _ & Hadmin & _);
    try reflexivity.
  exists payload. split; [exact Hrun|]. split; [exact Htoken|exact Hadmin].
Defined.

Lemma Login_sign_failure_witness :
  Login brokenSignerEnv emptyResponse (credentials "alice" "s3cret")
    (fresh aliceStore)
  = (Returned (RespondWithError emptyResponse 500
                 "Unknown error authenticating user. Please try again"),
     {| store := {| users := [touch 1700000500 "u-1" alice];
                    clock := 1700000500 |};
        history := [CallFindByUsername "alice"; CallUpdateLastLoginAt "u-1"] |}).
Proof.
  rewrite (Login_sign_failure brokenSignerEnv emptyResponse
             (credentials "alice" "s3cret") (fresh aliceStore)
             {[ "username" := "alice"; "password" := "s3cret" ]}
             alice "" (errors_New "key is invalid"));
    reflexivity.
Defined.

Lemma Login_token_needs_matching_credentials_witness :
  ∃ data u tokenString,
    Body (credentials "alice" "s3cret") = BodyObject data
    ∧ FindByUsername (store (fresh aliceStore)) (default "" (data !! "username"))
      = (Some u, None)
    ∧ Password u = default "" (data !! "password")
    ∧ CreateToken plainEnv u = (tokenString, None)
    ∧ VString "token:alice" = VString tokenString
    ∧ Status (RespondWithJSON emptyResponse 200
                (loginPayload plainEnv "alice" "token:alice" alice)) = Some 200.
Proof.
  apply (Login_token_needs_matching_credentials plainEnv emptyResponse
           (credentials "alice" "s3cret") (fresh aliceStore)
           (RespondWithJSON emptyResponse 200
              (loginPayload plainEnv "alice" "token:alice" alice))
           {| store := {| users := [touch 1700000500 "u-1" alice];
                          clock := 1700000500 |};
              history := [CallFindByUsername "alice";
                          CallUpdateLastLoginAt "u-1"] |}
           (VString "token:alice")); reflexivity.
Defined.

Lemma Login_no_enumeration_witness :
  (Login plainEnv emptyResponse (credentials "bob" "s3cret") (fresh aliceStore)).1
  = (Login plainEnv emptyResponse (credentials "alice" "guess") (fresh aliceStore)).1.
Proof.
  apply (Login_no_enumeration plainEnv emptyResponse
           (credentials "bob" "s3cret") (credentials "alice" "guess")
           (fresh aliceStore)
           {[ "username" := "bob"; "password" := "s3cret" ]}
           {[ "username" := "alice"; "password" := "guess" ]} alice);
    try reflexivity.
  simpl. discriminate.
Defined.

Lemma CreateAdmin_gate_witness :
  CreateAdmin plainEnv emptyResponse (credentials "eve" "pw")
    (fresh (countFails emptyStore (errors_New "database is locked")))
  = (Returned (RespondWithError emptyResponse 500 "database is locked"),
     {| store := countFails emptyStore (errors_New "database is locked");
        history := [CallCountAll] |})
  ∧ CreateAdmin plainEnv emptyResponse (credentials "eve" "pw") (fresh aliceStore)
    = (Returned (RespondWithError emptyResponse 403
                   "Cannot create another first admin"),
       {| store := aliceStore; history := [CallCountAll] |}).
Proof.
  split.
  - apply (proj1 (CreateAdmin_gate plainEnv emptyResponse (credentials "eve" "pw")
                    (fresh (countFails emptyStore (errors_New "database is locked")))
                    {[ "username" := "eve"; "password" := "pw" ]} 0 eq_refl)
             (errors_New "database is locked")).
    reflexivity.
  - apply (proj2 (CreateAdmin_gate plainEnv emptyResponse (credentials "eve" "pw")
                    (fresh aliceStore)
                    {[ "username" := "eve"; "password" := "pw" ]} 1 eq_refl));
      [reflexivity|exact eq_refl].
Defined.

Lemma Authenticator_preserves_store_witness :
  store (Authenticator plainEnv whoami emptyResponse
           (bare (withToken (verifiedToken "h.p.s" (VString "alice"))))
           (fresh aliceStore)).2 = aliceStore.
Proof.
  apply (Authenticator_preserves_store plainEnv whoami emptyResponse
           (bare (withToken (verifiedToken "h.p.s" (VString "alice"))))
           (fresh aliceStore)).
  intros w' r' σ'. reflexivity.
Defined.

Lemma Authenticator_unknown_subject_witness :
  (Authenticator plainEnv whoami emptyResponse
     (bare (withToken (verifiedToken "h.p.s" (VString "bob"))))
     (fresh emptyStore)).1
  = Returned (RespondWithJSON
                (Header_Set emptyResponse "Authorization" "h.p.s+") 200
                {[ "user" := VNil ]}).
Proof.
  rewrite (Authenticator_unknown_subject plainEnv whoami emptyResponse
             (bare (withToken (verifiedToken "h.p.s" (VString "bob"))))
             (fresh emptyStore) (verifiedToken "h.p.s" (VString "bob"))
             "bob" "h.p.s+" ErrNotFound);
    reflexivity.
Defined.

Lemma Login_after_CreateAdmin_witness :
  let σ1 := (CreateAdmin plainEnv emptyResponse (credentials "root" "s3cret")
               (fresh emptyStore)).2 in
  (∃ payload,
     (Login plainEnv emptyResponse (credentials "root" "s3cret") σ1).1
     = Returned (RespondWithJSON emptyResponse 200 payload)
     ∧ payload !! "isAdmin" = Some (VBool true)
     ∧ payload !! "name" = Some (VString "Root"))
  ∧ (Login plainEnv emptyResponse (credentials "root" "guess") σ1).1
    = Returned (RespondWithError emptyResponse 401 "Invalid username or password").
Proof.
  intros σ1. split.
  - apply (proj1 (Login_after_CreateAdmin users MemStore_contract plainEnv
                    emptyResponse (credentials "root" "s3cret") (fresh emptyStore)
                    {[ "username" := "root"; "password" := "s3cret" ]}
                    plainEnv emptyResponse (credentials "root" "s3cret")
                    {[ "username" := "root"; "password" := "s3cret" ]}
                    eq_refl eq_refl eq_refl eq_refl (λ u, eq_refl))).
    reflexivity.
  - apply (proj2 (Login_after_CreateAdmin users MemStore_contract plainEnv
                    emptyResponse (credentials "root" "s3cret") (fresh emptyStore)
                    {[ "username" := "root"; "password" := "s3cret" ]}
                    plainEnv emptyResponse (credentials "root" "guess")
                    {[ "username" := "root"; "password" := "guess" ]}
                    eq_refl eq_refl eq_refl eq_refl (λ u, eq_refl))).
    simpl. discriminate.
Defined.

Lemma CreateAdmin_sign_failure_keeps_admin_witness :
  ∃ admin,
    (CreateAdmin brokenSignerEnv emptyResponse (credentials "root" "s3cret")
       (fresh emptyStore)).1
    = Returned (RespondWithError emptyResponse 500
                  "Unknown error authenticating user. Please try again")
    ∧ users (store (CreateAdmin brokenSignerEnv emptyResponse
                      (credentials "root" "s3cret") (fresh emptyStore)).2)
      = [admin]
    ∧ UserName admin = "root"
    ∧ IsAdmin admin = true
    ∧ (CreateAdmin plainEnv emptyResponse (credentials "mallory" "pw")
         (CreateAdmin brokenSignerEnv emptyResponse (credentials "root" "s3cret")
            (fresh emptyStore)).2).1
      = Returned (RespondWithError emptyResponse 403
                    "Cannot create another first admin").
Proof.
  assert (Hsign : ∀ u, (CreateToken brokenSignerEnv u).2 ≠ None)
    by (intros u; simpl; discriminate).
  exact (CreateAdmin_sign_failure_keeps_admin users MemStore_contract
           brokenSignerEnv emptyResponse (credentials "root" "s3cret")
           (fresh emptyStore)
           {[ "username" := "root"; "password" := "s3cret" ]}
           plainEnv emptyResponse (credentials "mallory" "pw")
           {[ "username" := "mallory"; "password" := "pw" ]}
           eq_refl eq_refl eq_refl Hsign).
Defined.
